(** * students-api: the HTTP handlers of package [student]

    A shallow embedding of the three request handlers [New], [GetById] and
    [GetList] (internal/http/handlers/student/student.go) together with the
    library calls they make, followed by the properties of their
    request-to-response pipeline.

    Go values are modelled as follows: [int], [int64] and HTTP status codes
    are [Z]; [string] and request bodies are [string] (a list of bytes); a
    slice keeps the distinction between [nil] and an empty slice; an [error]
    is an inductive type with one constructor per kind of error value the
    handlers can meet; the [any] argument of [response.WriteJson] is a tagged
    union over the payload types the handlers pass.  A handler is a
    computation in a state monad over [World]: the storage backend, the
    [http.ResponseWriter] and a chronological trace of every outside call. *)

From Stdlib Require Import ZArith List String Ascii Bool Lia DecimalString DecimalPos.
From ExtLib Require Import Structures.Monad Structures.MonadState.
From ExtLib Require Import Data.Monads.StateMonad.
Import ListNotations.
Import MonadNotation.

Local Open Scope string_scope.
Local Open Scope Z_scope.
Local Open Scope monad_scope.

Set Warnings "-register-all".

(* ===================================================================== *)
(** ** JSON documents *)
(* ===================================================================== *)

(** A JSON document as a value tree.  [encoding/json] output is kept at this
    level: the text of a document (escapes, spacing) is not modelled. *)
Inductive json : Type :=
| JNull
| JNum (n : Z)
| JStr (s : string)
| JArr (elems : list json)
| JObj (members : list (string * json)).

(* ===================================================================== *)
(** ** Go error values *)
(* ===================================================================== *)

(** The dynamic values behind the [error] interface.  A [nil] error is
    [None] in [option error]. *)
Inductive error : Type :=
| io_EOF                                     (* the sentinel io.EOF *)
| errorString (s : string)                   (* errors.New(s), fmt.Errorf(s) *)
| wrapError (msg : string) (err : error)     (* fmt.Errorf with a %w verb *)
| NumError (Func Num : string) (Err : error) (* *strconv.NumError *)
| opaqueError (text : string) (exported : list (string * json)).
    (* any other library error: the text of Error() and the exported fields
       encoding/json sees (json.SyntaxError, sqlite3.Error, ...) *)

(** [errors.Is(err, io.EOF)]: walks the Unwrap chain. *)
Fixpoint unwrapsTo_EOF (e : error) : bool :=
  match e with
  | io_EOF => true
  | wrapError _ err => unwrapsTo_EOF err
  | NumError _ _ Err => unwrapsTo_EOF Err
  | errorString _ | opaqueError _ _ => false
  end.

Definition errors_Is_EOF (err : option error) : bool :=
  match err with
  | None => false
  | Some e => unwrapsTo_EOF e
  end.

(** [fmt.Errorf(format)] for a format without verbs. *)
Definition fmt_Errorf (format : string) : error := errorString format.

(** [fmt.Sprint] of an integer. *)
Definition fmt_Sprint (n : Z) : string := NilZero.string_of_int (Z.to_int n).

(** How [encoding/json] marshals an error value: the exported fields of its
    dynamic type.  [*errors.errorString] and [*fmt.wrapError] have none. *)
Fixpoint marshal_error (e : error) : json :=
  match e with
  | io_EOF | errorString _ | wrapError _ _ => JObj []
  | NumError Func Num Err =>
      JObj [("Func", JStr Func); ("Num", JStr Num); ("Err", marshal_error Err)]
  | opaqueError _ exported => JObj exported
  end.

(* ===================================================================== *)
(** ** strconv.ParseInt(s, 10, 64) *)
(* ===================================================================== *)

Module strconv.

Definition ErrSyntax : error := errorString "invalid syntax".
Definition ErrRange : error := errorString "value out of range".

Definition base : Z := 10.
Definition bitSize : Z := 64.
Definition maxUint64 : Z := 2 ^ 64 - 1.

(** The digit value of one byte, as the switch of [ParseUint] computes it:
    ['0'..'9'], else a letter after [lower(c) = c | 0x20]. *)
Definition digit (c : ascii) : option Z :=
  let b := Z.of_N (N_of_ascii c) in
  if (48 <=? b) && (b <=? 57) then Some (b - 48)
  else
    let l := Z.lor b 32 in
    if (97 <=? l) && (l <=? 122) then Some (l - 97 + 10) else None.

Inductive uintResult : Type :=
| UintOk (n : Z)
| UintSyntax
| UintRange.

(** The loop of [ParseUint] over the bytes of [s].  [n * base + d] is
    computed in [Z]; exceeding [maxVal] covers both the uint64 wrap-around
    test [n1 < n] and the test [n1 > maxVal]. *)
Fixpoint ParseUint_loop (cutoff maxVal : Z) (s : string) (n : Z) : uintResult :=
  match s with
  | EmptyString => UintOk n
  | String c rest =>
      match digit c with
      | None => UintSyntax
      | Some d =>
          if d >=? base then UintSyntax
          else if n >=? cutoff then UintRange
          else
            let n1 := n * base + d in
            if n1 >? maxVal then UintRange
            else ParseUint_loop cutoff maxVal rest n1
      end
  end.

Definition ParseUint (s : string) : uintResult :=
  match s with
  | EmptyString => UintSyntax
  | _ => ParseUint_loop (maxUint64 / base + 1) (2 ^ bitSize - 1) s 0
  end.

Definition syntaxError (fn str : string) : error := NumError fn str ErrSyntax.
Definition rangeError (fn str : string) : error := NumError fn str ErrRange.

(** [strconv.ParseInt(s, 10, 64)]: an optional sign, then [ParseUint], then
    the range test against [1 << 63]. *)
Definition ParseInt (s : string) : Z * option error :=
  match s with
  | EmptyString => (0, Some (syntaxError "ParseInt" s))
  | String c rest =>
      let neg := Ascii.eqb c "-" in
      let s1 := if Ascii.eqb c "+" || Ascii.eqb c "-" then rest else s in
      let cutoff := 2 ^ (bitSize - 1) in
      match ParseUint s1 with
      | UintSyntax => (0, Some (syntaxError "ParseInt" s))
      | UintRange =>
          if neg then (- cutoff, Some (rangeError "ParseInt" s))
          else (cutoff - 1, Some (rangeError "ParseInt" s))
      | UintOk un =>
          if negb neg && (un >=? cutoff) then
            (cutoff - 1, Some (rangeError "ParseInt" s))
          else if neg && (un >? cutoff) then
            (- cutoff, Some (rangeError "ParseInt" s))
          else (if neg then - un else un, None)
      end
  end.

End strconv.

(* ===================================================================== *)
(** ** types.Student and Go slices *)
(* ===================================================================== *)

(** The struct [types.Student]; the handlers read [Name], [Email] and [Age]
    and pass them to [CreateStudent(name string, email string, age int)]. *)
Record Student : Type := mkStudent {
  Id : Z;
  Name : string;
  Email : string;
  Age : Z
}.

(** The zero value [types.Student{}]. *)
Definition zeroStudent : Student := mkStudent 0 "" "" 0.

(** A Go slice value: [nil], or a slice over some elements (possibly none). *)
Inductive slice (A : Type) : Type :=
| nil_slice
| mk_slice (elems : list A).
Arguments nil_slice {A}.
Arguments mk_slice {A} elems.

Definition elements {A : Type} (s : slice A) : list A :=
  match s with
  | nil_slice => []
  | mk_slice l => l
  end.

(* ===================================================================== *)
(** ** Library functions outside the repository *)
(* ===================================================================== *)

(** Two library functions are taken as given rather than modelled:
    [strconv.Quote], which appears in the text of a [*strconv.NumError], and
    the part of [Decode] of a [json.Decoder] that runs once the body holds a byte
    that is not JSON white space (scanning one value and unmarshalling it
    into a [Student]). *)
Class GoLib : Type := {
  strconv_Quote : string -> string;
  Decoder_value : string -> Student * option error
}.

(** [err.Error()]. *)
Fixpoint Error {lib : GoLib} (e : error) : string :=
  match e with
  | io_EOF => "EOF"
  | errorString s => s
  | wrapError msg _ => msg
  | NumError Func Num Err =>
      "strconv." ++ Func ++ ": parsing " ++ strconv_Quote Num ++ ": " ++ Error Err
  | opaqueError text _ => text
  end.

(** The white space of the JSON scanner ([isSpace] in encoding/json). *)
Definition isSpace (c : ascii) : bool :=
  Ascii.eqb c " " || Ascii.eqb c "009" || Ascii.eqb c "013" || Ascii.eqb c "010".

(** [nonSpace(b)]: some byte of [b] is not white space. *)
Fixpoint nonSpace (b : string) : bool :=
  match b with
  | EmptyString => false
  | String c rest => negb (isSpace c) || nonSpace rest
  end.

(** [json.NewDecoder(r.Body).Decode(&student)] on a body that is read to its
    end without a transport error.  [readValue] reports [io.EOF] when the
    input ends before any byte that is not white space; the target keeps its
    zero value.  Everything else is [Decoder_value]. *)
Definition json_Decode {lib : GoLib} (body : string) : Student * option error :=
  if nonSpace body then Decoder_value body
  else (zeroStudent, Some io_EOF).

(* ===================================================================== *)
(** ** Package response *)
(* ===================================================================== *)

(** Modelled from the spec: the struct behind the error envelope
    [{"status":"error","error":<string>}] of package response, which is not
    among the sources.  [Status] is the member "status", [Message] the
    member "error". *)
Record Response : Type := mkResponse {
  Status : string;
  Message : string
}.

Definition StatusError : string := "error".

(** Modelled from the spec: [response.GeneralError] is not among the sources;
    it "wraps err into {status:"error", error:<string>}". *)
Definition GeneralError {lib : GoLib} (err : error) : Response :=
  mkResponse StatusError (Error err).

(** One entry of [validator.ValidationErrors]: the struct field and the tag
    of the rule it broke. *)
Record FieldError : Type := mkFieldError {
  Field : string;
  ActualTag : string
}.

(** Modelled from the spec: the validation tags of [types.Student], which is
    not among the sources: "name required, email required, age required
    (non-zero)".  [validator.New().Struct] reports the fields in declaration
    order; the rule [required] fails on the zero value of the field's type.
    An empty list is the [nil] error. *)
Definition validator_Struct (s : Student) : list FieldError :=
  (if String.eqb (Name s) "" then [mkFieldError "Name" "required"] else [])
  ++ (if String.eqb (Email s) "" then [mkFieldError "Email" "required"] else [])
  ++ (if Age s =? 0 then [mkFieldError "Age" "required"] else []).

(** Modelled from the spec: the message for one field failure, "field name +
    constraint". *)
Definition fieldMessage (fe : FieldError) : string :=
  "field " ++ Field fe ++ " is " ++ ActualTag fe.

Definition validationMessages (errs : list FieldError) : list string :=
  map fieldMessage errs.

(** Modelled from the spec: [response.ValidationError] is not among the
    sources; it "transforms a set of per-field validation failures into a
    single human-readable error string (field name + constraint, joined),
    then delegates to the general error shape". *)
Definition ValidationError (errs : list FieldError) : Response :=
  mkResponse StatusError (String.concat ", " (validationMessages errs)).

(** The values the handlers pass as the [data any] argument of
    [response.WriteJson]. *)
Inductive any : Type :=
| any_Response (r : Response)
| any_error (e : error)
| any_map (m : list (string * Z))       (* map[string]int64 *)
| any_Student (s : Student)
| any_Students (l : slice Student).     (* []types.Student *)

(** Modelled from the spec: the JSON shape of a Student,
    [{"id": <int>, "name": <string>, "email": <string>, "age": <int>}]. *)
Definition marshal_Student (s : Student) : json :=
  JObj [("id", JNum (Id s)); ("name", JStr (Name s));
        ("email", JStr (Email s)); ("age", JNum (Age s))].

(** [encoding/json] on a payload.  A nil slice is encoded as [null], any
    other slice as an array.  (Maps are written with sorted keys; the only
    map the handlers build has one key.) *)
Definition Marshal (v : any) : json :=
  match v with
  | any_Response r => JObj [("status", JStr (Status r)); ("error", JStr (Message r))]
  | any_error e => marshal_error e
  | any_map m => JObj (map (fun kv => (fst kv, JNum (snd kv))) m)
  | any_Student s => marshal_Student s
  | any_Students nil_slice => JNull
  | any_Students (mk_slice l) => JArr (map marshal_Student l)
  end.

Definition StatusOK : Z := 200.
Definition StatusCreated : Z := 201.
Definition StatusBadRequest : Z := 400.
Definition StatusInternalServerError : Z := 500.

(** An [http.ResponseWriter]: the status line once it is written, and the
    JSON documents written to the body so far. *)
Record ResponseWriter : Type := mkWriter {
  wroteHeader : option Z;
  body : list json
}.

Definition newWriter : ResponseWriter := mkWriter None [].

(** [w.WriteHeader(code)]: the first call fixes the status; net/http ignores
    a later call. *)
Definition WriteHeader (code : Z) (w : ResponseWriter) : ResponseWriter :=
  match wroteHeader w with
  | Some _ => w
  | None => mkWriter (Some code) (body w)
  end.

(** [json.NewEncoder(w).Encode(data)]: one document appended to the body. *)
Definition Encode (data : any) (w : ResponseWriter) : ResponseWriter :=
  mkWriter (wroteHeader w) (body w ++ [Marshal data]).

(* ===================================================================== *)
(** ** The storage interface *)
(* ===================================================================== *)

(** [storage.Storage]: the three methods the handlers call, over a backend
    state [St] that each call may change.  Every method returns both of its
    Go results. *)
Class Storage (St : Type) : Type := {
  CreateStudent : string -> string -> Z -> St -> (Z * option error) * St;
  GetStudentById : Z -> St -> (Student * option error) * St;
  GetStudents : St -> (slice Student * option error) * St
}.

Inductive StorageCall : Type :=
| CallCreateStudent (name email : string) (age : Z)
| CallGetStudentById (id : Z)
| CallGetStudents.

(* ===================================================================== *)
(** ** One request: the world a handler acts on *)
(* ===================================================================== *)

(** Everything a handler does to the outside, in order. *)
Inductive Event : Type :=
| EvLog (level msg : string) (attrs : list (string * string))
| EvValidate (s : Student)
| EvStorage (c : StorageCall)
| EvWriteJson (status : Z) (data : any).

Record Request : Type := mkRequest {
  Body : string;
  PathValue : string -> string
}.

Section Handlers.

Context {lib : GoLib} {St : Type} {storage : Storage St}.

Record World : Type := mkWorld {
  store : St;
  w : ResponseWriter;
  trace : list Event
}.

Definition handler : Type := Request -> state World unit.

Definition emit (e : Event) : state World unit :=
  wd <- get ;;
  put (mkWorld (store wd) (w wd) (trace wd ++ [e])).

Definition slog_Info (msg : string) (attrs : list (string * string)) : state World unit :=
  emit (EvLog "INFO" msg attrs).

Definition slog_Error (msg : string) (attrs : list (string * string)) : state World unit :=
  emit (EvLog "ERROR" msg attrs).

(** Modelled from the spec: [response.WriteJson] is not among the sources;
    it "serializes payload to JSON and writes it verbatim with the given
    status code". *)
Definition WriteJson (status : Z) (data : any) : state World unit :=
  emit (EvWriteJson status data) ;;
  wd <- get ;;
  put (mkWorld (store wd) (Encode data (WriteHeader status (w wd))) (trace wd)).

(** [validator.New().Struct(student)]. *)
Definition validator_New_Struct (s : Student) : state World (list FieldError) :=
  emit (EvValidate s) ;;
  ret (validator_Struct s).

(** A method call on the [storage] the handler closes over. *)
Definition invoke {A : Type} (c : StorageCall) (method : St -> A * St) : state World A :=
  emit (EvStorage c) ;;
  wd <- get ;;
  let (res, st') := method (store wd) in
  put (mkWorld st' (w wd) (trace wd)) ;;
  ret res.

Definition storage_CreateStudent (name email : string) (age : Z)
  : state World (Z * option error) :=
  invoke (CallCreateStudent name email age) (CreateStudent name email age).

Definition storage_GetStudentById (id : Z) : state World (Student * option error) :=
  invoke (CallGetStudentById id) (GetStudentById id).

Definition storage_GetStudents : state World (slice Student * option error) :=
  invoke CallGetStudents GetStudents.

(** [func New(storage storage.Storage) http.HandlerFunc]. *)
Definition New : handler := fun r =>
  slog_Info "creating a student" [] ;;
  let '(student, err) := json_Decode (Body r) in
  if errors_Is_EOF err then
    WriteJson StatusBadRequest (any_Response (GeneralError (fmt_Errorf "empty body")))
  else
    match err with
    | Some e =>
        WriteJson StatusBadRequest (any_Response (GeneralError e))
    | None =>
        validateErrs <- validator_New_Struct student ;;
        match validateErrs with
        | _ :: _ =>
            WriteJson StatusBadRequest (any_Response (ValidationError validateErrs))
        | [] =>
            ' (lastId, err) <-
              storage_CreateStudent (Name student) (Email student) (Age student) ;;
            slog_Info "user created successfully" [("userId", fmt_Sprint lastId)] ;;
            match err with
            | Some e => WriteJson StatusInternalServerError (any_error e)
            | None => WriteJson StatusCreated (any_map [("id", lastId)])
            end
        end
    end.

(** [func GetById(storage storage.Storage) http.HandlerFunc].  The error
    branch of the storage call has no [return]: control reaches the last
    [WriteJson] on both outcomes. *)
Definition GetById : handler := fun r =>
  let id := PathValue r "id" in
  slog_Info "getting student by id" [("id", id)] ;;
  let '(intId, err) := strconv.ParseInt id in
  match err with
  | Some e =>
      WriteJson StatusBadRequest (any_Response (GeneralError e))
  | None =>
      ' (student, err) <- storage_GetStudentById intId ;;
      match err with
      | Some e =>
          slog_Error "error getting user" [("id", id)] ;;
          WriteJson StatusInternalServerError (any_Response (GeneralError e))
      | None => ret tt
      end ;;
      WriteJson StatusOK (any_Student student)
  end.

(** [func GetList(storage storage.Storage) http.HandlerFunc]. *)
Definition GetList : handler := fun r =>
  slog_Info "getting list of students" [] ;;
  ' (students, err) <- storage_GetStudents ;;
  match err with
  | Some e => WriteJson StatusInternalServerError (any_error e)
  | None => WriteJson StatusOK (any_Students students)
  end.

(** One invocation of a handler: a fresh [ResponseWriter], an empty trace,
    and the backend in state [st]. *)
Definition serve (h : handler) (r : Request) (st : St) : World :=
  execState (h r) (mkWorld st newWriter []).

(** The [WriteJson] calls of an invocation, in order. *)
Fixpoint writes_of (t : list Event) : list (Z * any) :=
  match t with
  | [] => []
  | EvWriteJson status data :: t' => (status, data) :: writes_of t'
  | _ :: t' => writes_of t'
  end.

Fixpoint storage_calls_of (t : list Event) : list StorageCall :=
  match t with
  | [] => []
  | EvStorage c :: t' => c :: storage_calls_of t'
  | _ :: t' => storage_calls_of t'
  end.

Fixpoint validations_of (t : list Event) : list Student :=
  match t with
  | [] => []
  | EvValidate s :: t' => s :: validations_of t'
  | _ :: t' => validations_of t'
  end.

Definition writes (wd : World) : list (Z * any) := writes_of (trace wd).
Definition storage_calls (wd : World) : list StorageCall := storage_calls_of (trace wd).
Definition validations (wd : World) : list Student := validations_of (trace wd).

End Handlers.

(* ===================================================================== *)
(** ** Test doubles *)
(* ===================================================================== *)

(** Stand-ins for the two library functions and for the storage backend, in
    the manner of the fakes a Go test of the handlers would inject.  They are
    used to run the handlers on concrete requests. *)
Module Fake.

(** The one-byte string holding a double quote. *)
Definition dq : string := String "034" EmptyString.

(** [strconv.Quote] on text that needs no escape. *)
Definition Quote (s : string) : string := dq ++ s ++ dq.

(** The body [{"name":n,"email":e,"age":a}]. *)
Definition studentBody (n e a : string) : string :=
  "{" ++ dq ++ "name" ++ dq ++ ":" ++ dq ++ n ++ dq ++ ","
      ++ dq ++ "email" ++ dq ++ ":" ++ dq ++ e ++ dq ++ ","
      ++ dq ++ "age" ++ dq ++ ":" ++ a ++ "}".

Definition aliceBody : string := studentBody "Alice" "alice@example.com" "20".
Definition namelessBody : string := studentBody "" "a@b.com" "20".

Definition io_ErrUnexpectedEOF : error := errorString "unexpected EOF".

Definition SyntaxError (msg : string) (offset : Z) : error :=
  opaqueError msg [("Offset", JNum offset)].

(** A decoder that knows a handful of bodies and reports every other one
    as a syntax error. *)
Definition decoder (b : string) : Student * option error :=
  if String.eqb b aliceBody then (mkStudent 0 "Alice" "alice@example.com" 20, None)
  else if String.eqb b namelessBody then (mkStudent 0 "" "a@b.com" 20, None)
  else if String.eqb b "{}" then (zeroStudent, None)
  else if String.eqb b "{" then (zeroStudent, Some io_ErrUnexpectedEOF)
  else (zeroStudent,
        Some (SyntaxError "invalid character 'x' looking for beginning of value" 1)).

Definition lib : GoLib := {|
  strconv_Quote := Quote;
  Decoder_value := decoder
|}.

(** An in-memory backend: the records in insertion order, identifiers
    counted from 1.  [GetStudents] appends the records to a nil slice, so
    an empty store yields the nil slice. *)
Definition memStore : Storage (list Student) := {|
  CreateStudent := fun name email age st =>
    let id := Z.of_nat (List.length st) + 1 in
    ((id, None), (st ++ [mkStudent id name email age])%list);
  GetStudentById := fun id st =>
    match find (fun s => Id s =? id) st with
    | Some s => ((s, None), st)
    | None =>
        ((zeroStudent,
          Some (errorString ("no student found with id " ++ fmt_Sprint id))), st)
    end;
  GetStudents := fun st =>
    ((match st with [] => nil_slice | _ :: _ => mk_slice st end, None), st)
|}.

Definition closed : error := errorString "sql: database is closed".

(** A backend whose every call fails. *)
Definition brokenStore : Storage unit := {|
  CreateStudent := fun _ _ _ st => ((0, Some closed), st);
  GetStudentById := fun _ st => ((zeroStudent, Some closed), st);
  GetStudents := fun st => ((nil_slice, Some closed), st)
|}.

(** A POST request with body [b]; a GET request whose path value "id" is
    [id]. *)
Definition post (b : string) : Request := mkRequest b (fun _ => "").
Definition get (id : string) : Request :=
  mkRequest "" (fun name => if String.eqb name "id" then id else "").

Definition alice : Student := mkStudent 0 "Alice" "alice@example.com" 20.
Definition nameless : Student := mkStudent 0 "" "a@b.com" 20.

(** A body of one carriage return and one line feed. *)
Definition crlf : string := String "013" (String "010" EmptyString).

(** The handlers over the doubles. *)
Definition memNew : handler := New (lib:=lib) (storage:=memStore).
Definition memGetById : handler := GetById (lib:=lib) (storage:=memStore).
Definition memGetList : handler := GetList (storage:=memStore).
Definition brokenNew : handler := New (lib:=lib) (storage:=brokenStore).
Definition brokenGetList : handler := GetList (storage:=brokenStore).

End Fake.

(** A second decoder double, for a body that carries an "id" member: the
    decoder stores it in the [Id] field of the Student. *)
Module FakeId.

(** The body [{"id":99,"name":"Alice","email":"alice@example.com","age":20}]. *)
Definition aliceWithIdBody : string :=
  "{" ++ Fake.dq ++ "id" ++ Fake.dq ++ ":99,"
      ++ Fake.dq ++ "name" ++ Fake.dq ++ ":" ++ Fake.dq ++ "Alice" ++ Fake.dq ++ ","
      ++ Fake.dq ++ "email" ++ Fake.dq ++ ":" ++ Fake.dq ++ "alice@example.com"
      ++ Fake.dq ++ "," ++ Fake.dq ++ "age" ++ Fake.dq ++ ":20}".

Definition aliceWithId : Student := mkStudent 99 "Alice" "alice@example.com" 20.

Definition decoder (b : string) : Student * option error :=
  if String.eqb b aliceWithIdBody then (aliceWithId, None)
  else Fake.decoder b.

Definition lib : GoLib := {|
  strconv_Quote := Fake.Quote;
  Decoder_value := decoder
|}.

Definition memNew : handler := New (lib:=lib) (storage:=Fake.memStore).

End FakeId.

(* ===================================================================== *)
(** ** Vocabulary of the properties *)
(* ===================================================================== *)

(** The field rules of a Student in the words of the specification: name
    non-empty, email non-empty, age non-zero.  [violates s f] says that [s]
    breaks the rule on the field named [f]. *)
Definition violates (s : Student) (f : string) : bool :=
  if String.eqb f "Name" then String.eqb (Name s) ""
  else if String.eqb f "Email" then String.eqb (Email s) ""
  else if String.eqb f "Age" then Age s =? 0
  else false.

Definition ruledFields : list string := ["Name"; "Email"; "Age"].

(** A decimal digit byte, and a string made of decimal digits only. *)
Definition isDigit (c : ascii) : bool :=
  (48 <=? Z.of_N (N_of_ascii c)) && (Z.of_N (N_of_ascii c) <=? 57).

Fixpoint allDigits (s : string) : bool :=
  match s with
  | EmptyString => true
  | String c rest => isDigit c && allDigits rest
  end.

(** The range of an [int64]. *)
Definition minInt64 : Z := - 2 ^ 63.
Definition maxInt64 : Z := 2 ^ 63 - 1.

(** The number read from the decimal digits [d] after a prefix whose value
    is [acc]. *)
Fixpoint decimal_value (acc : Z) (d : Decimal.uint) : Z :=
  match d with
  | Decimal.Nil => acc
  | Decimal.D0 d' => decimal_value (acc * 10 + 0) d'
  | Decimal.D1 d' => decimal_value (acc * 10 + 1) d'
  | Decimal.D2 d' => decimal_value (acc * 10 + 2) d'
  | Decimal.D3 d' => decimal_value (acc * 10 + 3) d'
  | Decimal.D4 d' => decimal_value (acc * 10 + 4) d'
  | Decimal.D5 d' => decimal_value (acc * 10 + 5) d'
  | Decimal.D6 d' => decimal_value (acc * 10 + 6) d'
  | Decimal.D7 d' => decimal_value (acc * 10 + 7) d'
  | Decimal.D8 d' => decimal_value (acc * 10 + 8) d'
  | Decimal.D9 d' => decimal_value (acc * 10 + 9) d'
  end.

(** What is taken for granted about [Decoder_value]: once the body holds a
    byte that is not white space, the errors of encoding/json are its own
    (io.ErrUnexpectedEOF, a syntax error, an unmarshal type error); none of
    them is or wraps [io.EOF]. *)
Definition decoder_never_EOF (lib : GoLib) : Prop :=
  forall b s e, Decoder_value b = (s, Some e) -> unwrapsTo_EOF e = false.

(** The errors [Decode] of encoding/json returns for a body that holds a
    byte other than white space, the target being a struct of string and
    integer fields: [io.ErrUnexpectedEOF] for input that ends inside a
    value; a [*json.SyntaxError] of the scanner, whose text is "invalid
    character " followed by the quoted byte and the context, and whose one
    exported field is [Offset]; a [*json.UnmarshalTypeError] for a value of
    the wrong type, whose text is "json: cannot unmarshal " followed by the
    value and the target. *)
Inductive json_decode_error : error -> Prop :=
| decode_ErrUnexpectedEOF :
    json_decode_error (errorString "unexpected EOF")
| decode_SyntaxError (rest : string) (offset : Z) :
    json_decode_error
      (opaqueError ("invalid character " ++ rest) [("Offset", JNum offset)])
| decode_UnmarshalTypeError (rest : string) (exported : list (string * json)) :
    json_decode_error (opaqueError ("json: cannot unmarshal " ++ rest) exported).

(** [Decoder_value] returns no other error. *)
Definition decoder_errors_are_json (lib : GoLib) : Prop :=
  forall b s e, Decoder_value b = (s, Some e) -> json_decode_error e.

(** The envelope [New] sends for an empty body. *)
Definition emptyBodyEnvelope : Response := mkResponse "error" "empty body".

(* ===================================================================== *)
(** ** The paths through the handlers *)
(* ===================================================================== *)

Ltac run_handler :=
  unfold serve, New, GetById, GetList,
    storage_CreateStudent, storage_GetStudentById, storage_GetStudents,
    invoke, WriteJson, validator_New_Struct, slog_Info, slog_Error, emit,
    execState.

Section Paths.

Context {lib : GoLib} {St : Type} {storage : Storage St}.

Implicit Types (r : Request) (st : St) (e : error) (student : Student).

(** *** New *)

Lemma New_path_EOF r st student err :
  json_Decode (Body r) = (student, err) ->
  errors_Is_EOF err = true ->
  serve New r st =
    mkWorld st
      (mkWriter (Some 400) [Marshal (any_Response emptyBodyEnvelope)])
      [EvLog "INFO" "creating a student" [];
       EvWriteJson 400 (any_Response emptyBodyEnvelope)].
Proof.
  intros Hdec Heof. run_handler. rewrite Hdec, Heof. reflexivity.
Qed.

Lemma New_path_decode_error r st student e :
  json_Decode (Body r) = (student, Some e) ->
  unwrapsTo_EOF e = false ->
  serve New r st =
    mkWorld st
      (mkWriter (Some 400) [Marshal (any_Response (GeneralError e))])
      [EvLog "INFO" "creating a student" [];
       EvWriteJson 400 (any_Response (GeneralError e))].
Proof.
  intros Hdec Heof. run_handler. rewrite Hdec. cbn. rewrite Heof. reflexivity.
Qed.

Lemma New_path_invalid r st student :
  json_Decode (Body r) = (student, None) ->
  validator_Struct student <> [] ->
  serve New r st =
    mkWorld st
      (mkWriter (Some 400)
         [Marshal (any_Response (ValidationError (validator_Struct student)))])
      [EvLog "INFO" "creating a student" [];
       EvValidate student;
       EvWriteJson 400 (any_Response (ValidationError (validator_Struct student)))].
Proof.
  intros Hdec Hval. run_handler. rewrite Hdec. cbn.
  destruct (validator_Struct student); [congruence | reflexivity].
Qed.

Lemma New_path_storage_error r st st' student lastId e :
  json_Decode (Body r) = (student, None) ->
  validator_Struct student = [] ->
  CreateStudent (Name student) (Email student) (Age student) st
    = ((lastId, Some e), st') ->
  serve New r st =
    mkWorld st'
      (mkWriter (Some 500) [Marshal (any_error e)])
      [EvLog "INFO" "creating a student" [];
       EvValidate student;
       EvStorage (CallCreateStudent (Name student) (Email student) (Age student));
       EvLog "INFO" "user created successfully" [("userId", fmt_Sprint lastId)];
       EvWriteJson 500 (any_error e)].
Proof.
  intros Hdec Hval Hst. run_handler. rewrite Hdec. cbn.
  rewrite Hval. cbn. rewrite Hst. reflexivity.
Qed.

Lemma New_path_created r st st' student lastId :
  json_Decode (Body r) = (student, None) ->
  validator_Struct student = [] ->
  CreateStudent (Name student) (Email student) (Age student) st
    = ((lastId, None), st') ->
  serve New r st =
    mkWorld st'
      (mkWriter (Some 201) [Marshal (any_map [("id", lastId)])])
      [EvLog "INFO" "creating a student" [];
       EvValidate student;
       EvStorage (CallCreateStudent (Name student) (Email student) (Age student));
       EvLog "INFO" "user created successfully" [("userId", fmt_Sprint lastId)];
       EvWriteJson 201 (any_map [("id", lastId)])].
Proof.
  intros Hdec Hval Hst. run_handler. rewrite Hdec. cbn.
  rewrite Hval. cbn. rewrite Hst. reflexivity.
Qed.

(** *** GetById *)

Lemma GetById_path_bad_id r st n e :
  strconv.ParseInt (PathValue r "id") = (n, Some e) ->
  serve GetById r st =
    mkWorld st
      (mkWriter (Some 400) [Marshal (any_Response (GeneralError e))])
      [EvLog "INFO" "getting student by id" [("id", PathValue r "id")];
       EvWriteJson 400 (any_Response (GeneralError e))].
Proof.
  intros Hid. run_handler. rewrite Hid. reflexivity.
Qed.

Lemma GetById_path_storage_error r st st' intId student e :
  strconv.ParseInt (PathValue r "id") = (intId, None) ->
  GetStudentById intId st = ((student, Some e), st') ->
  serve GetById r st =
    mkWorld st'
      (mkWriter (Some 500)
         [Marshal (any_Response (GeneralError e)); Marshal (any_Student student)])
      [EvLog "INFO" "getting student by id" [("id", PathValue r "id")];
       EvStorage (CallGetStudentById intId);
       EvLog "ERROR" "error getting user" [("id", PathValue r "id")];
       EvWriteJson 500 (any_Response (GeneralError e));
       EvWriteJson 200 (any_Student student)].
Proof.
  intros Hid Hst. run_handler. rewrite Hid. cbn. rewrite Hst. reflexivity.
Qed.

Lemma GetById_path_found r st st' intId student :
  strconv.ParseInt (PathValue r "id") = (intId, None) ->
  GetStudentById intId st = ((student, None), st') ->
  serve GetById r st =
    mkWorld st'
      (mkWriter (Some 200) [Marshal (any_Student student)])
      [EvLog "INFO" "getting student by id" [("id", PathValue r "id")];
       EvStorage (CallGetStudentById intId);
       EvWriteJson 200 (any_Student student)].
Proof.
  intros Hid Hst. run_handler. rewrite Hid. cbn. rewrite Hst. reflexivity.
Qed.

(** *** GetList *)

Lemma GetList_path_storage_error r st st' students e :
  GetStudents st = ((students, Some e), st') ->
  serve GetList r st =
    mkWorld st'
      (mkWriter (Some 500) [Marshal (any_error e)])
      [EvLog "INFO" "getting list of students" [];
       EvStorage CallGetStudents;
       EvWriteJson 500 (any_error e)].
Proof.
  intros Hst. run_handler. cbn. rewrite Hst. reflexivity.
Qed.

Lemma GetList_path_listed r st st' students :
  GetStudents st = ((students, None), st') ->
  serve GetList r st =
    mkWorld st'
      (mkWriter (Some 200) [Marshal (any_Students students)])
      [EvLog "INFO" "getting list of students" [];
       EvStorage CallGetStudents;
       EvWriteJson 200 (any_Students students)].
Proof.
  intros Hst. run_handler. cbn. rewrite Hst. reflexivity.
Qed.

End Paths.

(* ===================================================================== *)
(** ** Facts about the library models *)
(* ===================================================================== *)

Lemma validator_Struct_nil (s : Student) :
  validator_Struct s = [] <-> Name s <> "" /\ Email s <> "" /\ Age s <> 0.
Proof.
  unfold validator_Struct.
  destruct (String.eqb_spec (Name s) ""), (String.eqb_spec (Email s) ""),
    (Z.eqb_spec (Age s) 0); cbn; split; intros Hs;
    solve [discriminate | tauto | repeat split; assumption].
Qed.

(** The validator reports exactly the fields whose rule is broken, once
    each, in declaration order. *)
Lemma validator_Struct_fields (s : Student) :
  map Field (validator_Struct s) = filter (violates s) ruledFields.
Proof.
  unfold validator_Struct, ruledFields, violates. cbn.
  destruct (String.eqb (Name s) ""), (String.eqb (Email s) ""), (Age s =? 0);
    reflexivity.
Qed.

Lemma validationMessages_length (errs : list FieldError) :
  List.length (validationMessages errs) = List.length errs.
Proof. unfold validationMessages. apply length_map. Qed.

Lemma json_Decode_blank {lib : GoLib} (b : string) :
  nonSpace b = false -> json_Decode b = (zeroStudent, Some io_EOF).
Proof. intros Hb. unfold json_Decode. rewrite Hb. reflexivity. Qed.

Lemma json_Decode_value {lib : GoLib} (b : string) :
  nonSpace b = true -> json_Decode b = Decoder_value b.
Proof. intros Hb. unfold json_Decode. rewrite Hb. reflexivity. Qed.

Lemma nonSpace_empty : nonSpace "" = false.
Proof. reflexivity. Qed.

(** *** strconv.ParseInt *)

Lemma digit_nonneg (c : ascii) (d : Z) : strconv.digit c = Some d -> 0 <= d.
Proof.
  unfold strconv.digit.
  destruct ((48 <=? Z.of_N (N_of_ascii c)) && (Z.of_N (N_of_ascii c) <=? 57)) eqn:Hdec.
  - intros [= <-]. apply andb_prop in Hdec as [Hlo _]. apply Z.leb_le in Hlo. lia.
  - destruct ((97 <=? Z.lor (Z.of_N (N_of_ascii c)) 32)
              && (Z.lor (Z.of_N (N_of_ascii c)) 32 <=? 122)) eqn:Hl;
      [| discriminate].
    intros [= <-]. apply andb_prop in Hl as [Hl _]. apply Z.leb_le in Hl. lia.
Qed.

(** A digit value below the base 10 comes from one of the bytes '0'..'9'. *)
Lemma digit_below_base (c : ascii) (d : Z) :
  strconv.digit c = Some d -> (d >=? strconv.base) = false -> isDigit c = true.
Proof.
  unfold strconv.digit, isDigit.
  destruct ((48 <=? Z.of_N (N_of_ascii c)) && (Z.of_N (N_of_ascii c) <=? 57));
    [reflexivity |].
  destruct ((97 <=? Z.lor (Z.of_N (N_of_ascii c)) 32)
            && (Z.lor (Z.of_N (N_of_ascii c)) 32 <=? 122)) eqn:Hl; [| discriminate].
  intros [= <-] Hd. apply andb_prop in Hl as [Hl _]. apply Z.leb_le in Hl.
  rewrite Z.geb_leb in Hd. apply Z.leb_gt in Hd. unfold strconv.base in Hd. lia.
Qed.

Lemma ParseUint_loop_nonneg (cutoff maxVal : Z) (s : string) :
  forall n m, 0 <= n ->
    strconv.ParseUint_loop cutoff maxVal s n = strconv.UintOk m -> 0 <= m.
Proof.
  induction s as [|c rest IH]; intros n m Hn; cbn.
  - intros [= <-]. exact Hn.
  - destruct (strconv.digit c) as [d|] eqn:Hd; [| discriminate].
    apply digit_nonneg in Hd.
    destruct (d >=? strconv.base); [discriminate |].
    destruct (n >=? cutoff); [discriminate |].
    destruct (n * strconv.base + d >? maxVal); [discriminate |].
    apply IH. unfold strconv.base. lia.
Qed.

Lemma ParseUint_loop_digits (cutoff maxVal : Z) (s : string) :
  forall n m, strconv.ParseUint_loop cutoff maxVal s n = strconv.UintOk m ->
    allDigits s = true.
Proof.
  induction s as [|c rest IH]; intros n m; cbn; [reflexivity |].
  destruct (strconv.digit c) as [d|] eqn:Hd; [| discriminate].
  destruct (d >=? strconv.base) eqn:Hb; [discriminate |].
  destruct (n >=? cutoff); [discriminate |].
  destruct (n * strconv.base + d >? maxVal); [discriminate |].
  intros Hrest. rewrite (digit_below_base c d Hd Hb). cbn. exact (IH _ _ Hrest).
Qed.

Lemma ParseUint_digits (s : string) (m : Z) :
  strconv.ParseUint s = strconv.UintOk m -> s <> "" /\ allDigits s = true.
Proof.
  unfold strconv.ParseUint. destruct s as [|c rest]; [discriminate |].
  intros Hloop. split; [discriminate |].
  exact (ParseUint_loop_digits _ _ _ _ _ Hloop).
Qed.

(** An identifier that parses is an optional sign followed by one or more
    decimal digits ... *)
Lemma ParseInt_syntax (s : string) (n : Z) :
  strconv.ParseInt s = (n, None) ->
  exists sign digits,
    s = sign ++ digits
    /\ (sign = "" \/ sign = "+" \/ sign = "-")
    /\ digits <> "" /\ allDigits digits = true.
Proof.
  unfold strconv.ParseInt. destruct s as [|c rest]; [discriminate |].
  destruct (strconv.ParseUint
              (if (Ascii.eqb c "+" || Ascii.eqb c "-")%bool then rest else String c rest))
    as [un | |] eqn:Hun.
  - intros _.
    destruct (Ascii.eqb_spec c "+") as [-> | Hplus];
      [| destruct (Ascii.eqb_spec c "-") as [-> | Hminus]];
      cbn [orb] in Hun; apply ParseUint_digits in Hun.
    + exists "+", rest. tauto.
    + exists "-", rest. tauto.
    + exists "", (String c rest). tauto.
  - discriminate.
  - destruct (Ascii.eqb c "-"); discriminate.
Qed.

(** ... and its value fits an int64. *)
Lemma ParseInt_int64 (s : string) (n : Z) :
  strconv.ParseInt s = (n, None) -> - 2 ^ 63 <= n <= 2 ^ 63 - 1.
Proof.
  unfold strconv.ParseInt. destruct s as [|c rest]; [discriminate |].
  set (s1 := if (Ascii.eqb c "+" || Ascii.eqb c "-")%bool then rest else String c rest).
  destruct (strconv.ParseUint s1) as [un | |] eqn:Hun.
  - assert (Hpos : 0 <= un).
    { unfold strconv.ParseUint in Hun. destruct s1; [discriminate |].
      eapply ParseUint_loop_nonneg; [| exact Hun]. lia. }
    change (2 ^ (strconv.bitSize - 1)) with (2 ^ 63).
    destruct (Ascii.eqb c "-"); cbn - [Z.pow].
    + destruct (un >? 2 ^ 63) eqn:Hgt; [discriminate |].
      intros [= <-]. rewrite Z.gtb_ltb in Hgt. apply Z.ltb_ge in Hgt. lia.
    + destruct (un >=? 2 ^ 63) eqn:Hge; [discriminate |].
      intros [= <-]. rewrite Z.geb_leb in Hge. apply Z.leb_gt in Hge. lia.
  - discriminate.
  - destruct (Ascii.eqb c "-"); discriminate.
Qed.

Example ParseInt_min_int64 :
  strconv.ParseInt "-9223372036854775808" = (-9223372036854775808, None).
Proof. reflexivity. Qed.

Example ParseInt_above_max_int64 :
  strconv.ParseInt "9223372036854775808"
    = (9223372036854775807, Some (strconv.rangeError "ParseInt" "9223372036854775808")).
Proof. reflexivity. Qed.

Example ParseInt_underscore :
  strconv.ParseInt "1_0" = (0, Some (strconv.syntaxError "ParseInt" "1_0")).
Proof. reflexivity. Qed.

(** *** The decoder double *)

(** The decoder double meets the assumptions on [Decoder_value]. *)
Lemma Fake_decoder_never_EOF : decoder_never_EOF Fake.lib.
Proof.
  intros b s e. cbn. unfold Fake.decoder.
  repeat match goal with |- context [String.eqb b ?k] => destruct (String.eqb b k) end;
    intros Hd; inversion Hd; reflexivity.
Qed.

Lemma Fake_decoder_errors_are_json : decoder_errors_are_json Fake.lib.
Proof.
  intros b s e. cbn. unfold Fake.decoder.
  repeat match goal with |- context [String.eqb b ?k] => destruct (String.eqb b k) end;
    intros Hd; inversion Hd.
  - exact decode_ErrUnexpectedEOF.
  - exact (decode_SyntaxError "'x' looking for beginning of value" 1).
Qed.

(** *** The errors of the JSON decoder *)

(** None of the decoder's errors is or wraps [io.EOF] ... *)
Lemma json_decode_error_not_EOF (e : error) :
  json_decode_error e -> unwrapsTo_EOF e = false.
Proof. intros He. destruct He; reflexivity. Qed.

(** ... and none has the text the handler reserves for a body without a
    value: the texts start with "unexpected", "invalid" or "json". *)
Lemma json_decode_error_text {lib : GoLib} (e : error) :
  json_decode_error e -> Error e <> "empty body".
Proof. intros He. destruct He; cbn; discriminate. Qed.

(* ===================================================================== *)
(** ** Properties of the handlers *)
(* ===================================================================== *)

(** Splits a goal about [serve New r st] along the five paths of [New] and
    rewrites the run into its final world on each. *)
Ltac New_cases r st :=
  let student := fresh "student" in
  let err := fresh "err" in
  let e := fresh "e" in
  let lastId := fresh "lastId" in
  let st' := fresh "st'" in
  let Hdec := fresh "Hdec" in
  let Heof := fresh "Heof" in
  let Hval := fresh "Hval" in
  let Hst := fresh "Hst" in
  let Hne := fresh "Hne" in
  destruct (json_Decode (Body r)) as [student err] eqn:Hdec;
  destruct (errors_Is_EOF err) eqn:Heof;
  [ rewrite (New_path_EOF r st student err Hdec Heof)
  | destruct err as [e|];
    [ rewrite (New_path_decode_error r st student e Hdec Heof)
    | destruct (validator_Struct student) eqn:Hval;
      [ destruct (CreateStudent (Name student) (Email student) (Age student) st)
          as [[lastId [e|]] st'] eqn:Hst;
        [ rewrite (New_path_storage_error r st st' student lastId e Hdec Hval Hst)
        | rewrite (New_path_created r st st' student lastId Hdec Hval Hst) ]
      | assert (Hne : validator_Struct student <> []) by (rewrite Hval; discriminate);
        rewrite (New_path_invalid r st student Hdec Hne) ] ] ].

Section Properties.

Context {lib : GoLib} {St : Type} {storage : Storage St}.

Implicit Types (r : Request) (st : St) (e : error) (student : Student).

(** *** How many responses an invocation writes *)

(** [New] and [GetList] call [WriteJson] exactly once on every path. *)
Lemma New_writes_once r st : List.length (writes (serve New r st)) = 1%nat.
Proof. New_cases r st; reflexivity. Qed.

Lemma GetList_writes_once r st : List.length (writes (serve GetList r st)) = 1%nat.
Proof.
  destruct (GetStudents st) as [[students [e|]] st'] eqn:Hst.
  - rewrite (GetList_path_storage_error r st st' students e Hst). reflexivity.
  - rewrite (GetList_path_listed r st st' students Hst). reflexivity.
Qed.

(** [GetById] calls it once, except after a storage error, where it calls it
    twice. *)
Lemma GetById_write_count r st :
  List.length (writes (serve GetById r st)) =
    match strconv.ParseInt (PathValue r "id") with
    | (_, Some _) => 1%nat
    | (intId, None) =>
        match fst (GetStudentById intId st) with
        | (_, Some _) => 2%nat
        | (_, None) => 1%nat
        end
    end.
Proof.
  destruct (strconv.ParseInt (PathValue r "id")) as [intId [e|]] eqn:Hid.
  - rewrite (GetById_path_bad_id r st intId e Hid). reflexivity.
  - destruct (GetStudentById intId st) as [[student [e|]] st'] eqn:Hst.
    + rewrite (GetById_path_storage_error r st st' intId student e Hid Hst).
      reflexivity.
    + rewrite (GetById_path_found r st st' intId student Hid Hst). reflexivity.
Qed.

(** *** The claims of the specification *)

(** C3.  When the storage list call returns an error, [GetList] answers
    with status 500 and a body that is the error value itself, handed to
    [WriteJson] as it is and not wrapped in the error envelope; this write
    is the last thing the handler does. *)
Theorem GetList_storage_error_is_raw r st st' students e :
  GetStudents st = ((students, Some e), st') ->
  let wd := serve GetList r st in
  trace wd = [EvLog "INFO" "getting list of students" [];
              EvStorage CallGetStudents;
              EvWriteJson StatusInternalServerError (any_error e)]
  /\ writes wd = [(StatusInternalServerError, any_error e)]
  /\ (forall resp, any_error e <> any_Response resp)
  /\ wroteHeader (w wd) = Some 500
  /\ body (w wd) = [marshal_error e].
Proof.
  intros Hst wd. subst wd.
  rewrite (GetList_path_storage_error r st st' students e Hst).
  repeat split. intros resp Heq. discriminate Heq.
Qed.

(** C5.  When the body decodes, the Student passes validation and the
    storage create call returns identifier [id] without error, [New]
    answers with status 201 and the body [{"id": id}], [id] being the
    identifier storage returned. *)
Theorem New_created_returns_storage_id r st st' student id :
  json_Decode (Body r) = (student, None) ->
  validator_Struct student = [] ->
  CreateStudent (Name student) (Email student) (Age student) st
    = ((id, None), st') ->
  let wd := serve New r st in
  writes wd = [(StatusCreated, any_map [("id", id)])]
  /\ wroteHeader (w wd) = Some 201
  /\ body (w wd) = [JObj [("id", JNum id)]]
  /\ storage_calls wd
       = [CallCreateStudent (Name student) (Email student) (Age student)]
  /\ store wd = st'.
Proof.
  intros Hdec Hval Hst wd. subst wd.
  rewrite (New_path_created r st st' student id Hdec Hval Hst).
  repeat split.
Qed.

(** C6.  When the body decodes into a Student that breaks a field rule
    (empty name, empty email or zero age), [New] answers with status 400
    and the validation-error envelope, which holds one message per broken
    rule; the storage create operation is not invoked and the backend is
    left as it was. *)
Theorem New_invalid_student_rejected r st student :
  json_Decode (Body r) = (student, None) ->
  Name student = "" \/ Email student = "" \/ Age student = 0 ->
  let errs := validator_Struct student in
  let wd := serve New r st in
  writes wd = [(StatusBadRequest, any_Response (ValidationError errs))]
  /\ wroteHeader (w wd) = Some 400
  /\ body (w wd) =
       [JObj [("status", JStr "error");
              ("error", JStr (String.concat ", " (validationMessages errs)))]]
  /\ map Field errs = filter (violates student) ruledFields
  /\ List.length (validationMessages errs)
       = List.length (filter (violates student) ruledFields)
  /\ storage_calls wd = []
  /\ store wd = st.
Proof.
  intros Hdec Hbad errs wd. subst errs wd.
  assert (Hval : validator_Struct student <> []).
  { intros Hnil. apply validator_Struct_nil in Hnil. tauto. }
  rewrite (New_path_invalid r st student Hdec Hval).
  repeat split.
  - apply validator_Struct_fields.
  - rewrite validationMessages_length, <- validator_Struct_fields.
    symmetry. apply length_map.
Qed.

(** C7.  When the path identifier does not parse as an integer, [GetById]
    answers with status 400 and returns at once: the write of the error
    envelope is its last action, and no storage operation is invoked. *)
Theorem GetById_bad_id_rejected r st n e :
  strconv.ParseInt (PathValue r "id") = (n, Some e) ->
  let wd := serve GetById r st in
  trace wd = [EvLog "INFO" "getting student by id" [("id", PathValue r "id")];
              EvWriteJson StatusBadRequest (any_Response (GeneralError e))]
  /\ writes wd = [(StatusBadRequest, any_Response (GeneralError e))]
  /\ wroteHeader (w wd) = Some 400
  /\ storage_calls wd = []
  /\ store wd = st.
Proof.
  intros Hid wd. subst wd.
  rewrite (GetById_path_bad_id r st n e Hid).
  repeat split.
Qed.

(** C10.  Every [CreateStudent] call that [New] makes carries a non-empty
    name, a non-empty email and a non-zero age: the arguments are the
    fields of a Student that passed validation. *)
Theorem New_creates_only_valid_students r st name email age :
  In (CallCreateStudent name email age) (storage_calls (serve New r st)) ->
  name <> "" /\ email <> "" /\ age <> 0.
Proof.
  New_cases r st; cbn; try tauto.
  all: intros [Hcall | []]; inversion Hcall; subst.
  all: apply validator_Struct_nil; assumption.
Qed.

Lemma decode_failure_not_EOF (b : string) student e :
  decoder_never_EOF lib ->
  nonSpace b = true ->
  json_Decode b = (student, Some e) ->
  unwrapsTo_EOF e = false.
Proof.
  intros Hlib Hb Hdec. rewrite (json_Decode_value b Hb) in Hdec.
  exact (Hlib b student e Hdec).
Qed.

(** C4 (amended).  When the body is empty, or holds nothing but JSON white
    space, [New] answers with status 400 and the error envelope whose
    message is exactly "empty body".  A body that holds some other byte and
    fails to decode is answered with the text of the decoder's own error,
    and that text differs from "empty body": the decoder's errors are
    [io.ErrUnexpectedEOF], a syntax error or an unmarshal type error, whose
    texts are "unexpected EOF", "invalid character ..." and
    "json: cannot unmarshal ...". *)
Theorem New_blank_body_message r st :
  nonSpace (Body r) = false ->
  let wd := serve New r st in
  (writes wd = [(StatusBadRequest, any_Response emptyBodyEnvelope)]
   /\ wroteHeader (w wd) = Some 400
   /\ body (w wd) = [JObj [("status", JStr "error"); ("error", JStr "empty body")]])
  /\ (decoder_errors_are_json lib ->
      forall r' (st' : St) student e,
        nonSpace (Body r') = true ->
        json_Decode (Body r') = (student, Some e) ->
        let wd' := serve New r' st' in
        writes wd' = [(StatusBadRequest, any_Response (GeneralError e))]
        /\ wroteHeader (w wd') = Some 400
        /\ body (w wd') = [JObj [("status", JStr "error"); ("error", JStr (Error e))]]
        /\ Error e <> "empty body"
        /\ body (w wd') <> body (w wd)).
Proof.
  intros Hblank wd. subst wd.
  rewrite (New_path_EOF r st zeroStudent (Some io_EOF)
             (json_Decode_blank (Body r) Hblank) eq_refl).
  split; [repeat split |].
  intros Hjson r' st' student e Hb Hdec wd'. subst wd'.
  assert (He : json_decode_error e).
  { rewrite (json_Decode_value (Body r') Hb) in Hdec.
    exact (Hjson (Body r') student e Hdec). }
  rewrite (New_path_decode_error r' st' student e Hdec
             (json_decode_error_not_EOF e He)).
  pose proof (json_decode_error_text e He) as Htext.
  cbn. repeat split; try exact Htext.
  intros Heq. apply Htext. congruence.
Qed.

(** C8 (amended).  When the body holds at least one byte that is not JSON
    white space and fails to decode, [New] answers with status 400 and the
    decode error in the general error envelope; the write is its last
    action, and neither validation nor any storage operation runs. *)
Theorem New_decode_error_rejected r st student e :
  decoder_never_EOF lib ->
  nonSpace (Body r) = true ->
  json_Decode (Body r) = (student, Some e) ->
  let wd := serve New r st in
  trace wd = [EvLog "INFO" "creating a student" [];
              EvWriteJson StatusBadRequest (any_Response (GeneralError e))]
  /\ writes wd = [(StatusBadRequest, any_Response (GeneralError e))]
  /\ wroteHeader (w wd) = Some 400
  /\ body (w wd) = [JObj [("status", JStr "error"); ("error", JStr (Error e))]]
  /\ validations wd = []
  /\ storage_calls wd = []
  /\ store wd = st.
Proof.
  intros Hnever Hb Hdec wd. subst wd.
  rewrite (New_path_decode_error r st student e Hdec
             (decode_failure_not_EOF (Body r) student e Hnever Hb Hdec)).
  repeat split.
Qed.

(** C9 (amended).  When the storage list call succeeds, [GetList] answers
    with status 200 and one body document, the JSON encoding of the slice
    storage returned: the array of exactly its Students, in order, for a
    slice that is not nil (so [[]] for an empty one), and [null] for the
    nil slice.  In neither case is the answer an error. *)
Theorem GetList_success_encodes_slice r st st' students :
  GetStudents st = ((students, None), st') ->
  let wd := serve GetList r st in
  writes wd = [(StatusOK, any_Students students)]
  /\ wroteHeader (w wd) = Some 200
  /\ body (w wd) =
       [match students with
        | nil_slice => JNull
        | mk_slice l => JArr (map marshal_Student l)
        end]
  /\ (students = mk_slice [] -> body (w wd) = [JArr []])
  /\ (students = nil_slice -> body (w wd) = [JNull]).
Proof.
  intros Hst wd. subst wd.
  rewrite (GetList_path_listed r st st' students Hst). cbn.
  split; [reflexivity |]. split; [reflexivity |].
  split; [destruct students; reflexivity |].
  split; intros ->; reflexivity.
Qed.

End Properties.

(* ===================================================================== *)
(** ** The handlers on concrete requests *)
(* ===================================================================== *)

(** C1 (code defect).  GET /api/students/7 against a store that holds no
    student 7: the identifier parses, the storage call returns an error, and
    [GetById] writes two responses in the one invocation, the 500 error
    envelope and then the 200 answer with the zero Student, where exactly
    one was due.  The client receives status 500 and both documents. *)
Theorem GetById_writes_twice_on_storage_error :
  let r := Fake.get "7" in
  let wd := serve Fake.memGetById r [] in
  strconv.ParseInt (PathValue r "id") = (7, None)
  /\ @GetStudentById _ Fake.memStore 7 []
       = ((zeroStudent, Some (errorString "no student found with id 7")), [])
  /\ writes wd =
       [(StatusInternalServerError,
         any_Response (mkResponse "error" "no student found with id 7"));
        (StatusOK, any_Student zeroStudent)]
  /\ wroteHeader (w wd) = Some 500
  /\ body (w wd) =
       [JObj [("status", JStr "error");
              ("error", JStr "no student found with id 7")];
        JObj [("id", JNum 0); ("name", JStr ""); ("email", JStr ""); ("age", JNum 0)]].
Proof.
  cbv zeta. unfold Fake.memGetById.
  rewrite (GetById_path_storage_error (lib:=Fake.lib) (storage:=Fake.memStore)
             (Fake.get "7") [] [] 7 zeroStudent
             (errorString "no student found with id 7") eq_refl eq_refl).
  repeat split.
Qed.

(** C2 (code defect).  POST /api/students with a well-formed, valid Student
    against a backend whose create call fails: [New] answers with status
    500, but the body is the error value handed to [WriteJson] as it is,
    here the empty object, and not the envelope
    [{"status":"error","error":<string>}]. *)
Theorem New_storage_error_sends_raw_error :
  let r := Fake.post Fake.aliceBody in
  let wd := serve Fake.brokenNew r tt in
  json_Decode (lib:=Fake.lib) (Body r) = (Fake.alice, None)
  /\ validator_Struct Fake.alice = []
  /\ @CreateStudent _ Fake.brokenStore "Alice" "alice@example.com" 20 tt
       = ((0, Some Fake.closed), tt)
  /\ writes wd = [(StatusInternalServerError, any_error Fake.closed)]
  /\ wroteHeader (w wd) = Some 500
  /\ body (w wd) = [JObj []]
  /\ body (w wd)
       <> [JObj [("status", JStr "error"); ("error", JStr "sql: database is closed")]].
Proof.
  cbv zeta. unfold Fake.brokenNew.
  rewrite (New_path_storage_error (lib:=Fake.lib) (storage:=Fake.brokenStore)
             (Fake.post Fake.aliceBody) tt tt Fake.alice 0 Fake.closed
             eq_refl eq_refl eq_refl).
  repeat split. cbn. discriminate.
Qed.

(** C4, as the specification words it, fails: a body of white space alone
    (here carriage return and line feed) is not empty, does not decode, and
    is answered with the very message "empty body". *)
Lemma blank_body_shares_the_empty_body_message :
  ~ ((forall r st, Body r = "" ->
        writes (serve Fake.brokenNew r st)
          = [(StatusBadRequest, any_Response emptyBodyEnvelope)])
     /\ (forall r st student e status resp,
           Body r <> "" ->
           json_Decode (lib:=Fake.lib) (Body r) = (student, Some e) ->
           In (status, any_Response resp) (writes (serve Fake.brokenNew r st)) ->
           Message resp <> "empty body")).
Proof.
  intros [_ Hdistinct].
  apply (Hdistinct (Fake.post Fake.crlf) tt zeroStudent io_EOF
           StatusBadRequest emptyBodyEnvelope).
  - discriminate.
  - reflexivity.
  - left. reflexivity.
  - reflexivity.
Qed.

(** C8, as the specification words it, fails: the body of one space is not
    empty and does not decode, yet the answer carries the fixed empty-body
    message and not the decode error [io.EOF]. *)
Lemma blank_body_is_not_answered_with_the_decode_error :
  ~ (forall r st student e,
       Body r <> "" ->
       json_Decode (lib:=Fake.lib) (Body r) = (student, Some e) ->
       writes (serve Fake.brokenNew r st)
         = [(StatusBadRequest, any_Response (GeneralError (lib:=Fake.lib) e))]).
Proof.
  intros Hclaim.
  assert (Hne : Body (Fake.post " ") <> "") by discriminate.
  specialize (Hclaim (Fake.post " ") tt zeroStudent io_EOF Hne eq_refl).
  vm_compute in Hclaim. discriminate Hclaim.
Qed.

(** C9, as the specification words it, fails: a backend that returns the nil
    slice for an empty store makes [GetList] answer 200 with the body
    [null], not [[]]. *)
Lemma empty_store_is_listed_as_null :
  ~ (forall r (st st' : list Student) students,
       @GetStudents _ Fake.memStore st = ((students, None), st') ->
       elements students = [] ->
       body (w (serve Fake.memGetList r st)) = [JArr []]).
Proof.
  intros Hclaim.
  specialize (Hclaim (Fake.get "") [] [] nil_slice eq_refl eq_refl).
  vm_compute in Hclaim. discriminate Hclaim.
Qed.

(* ===================================================================== *)
(** ** The properties at work *)
(* ===================================================================== *)

(** Listing from the broken backend: status 500 and the raw error. *)
Lemma GetList_storage_error_is_raw_witness :
  @GetStudents _ Fake.brokenStore tt = ((nil_slice, Some Fake.closed), tt)
  /\ writes (serve Fake.brokenGetList (Fake.get "") tt)
       = [(500, any_error Fake.closed)].
Proof.
  split; [reflexivity |].
  exact (proj1 (proj2 (GetList_storage_error_is_raw (storage:=Fake.brokenStore)
                         (Fake.get "") tt tt nil_slice Fake.closed eq_refl))).
Defined.

(** Creating Alice in the empty in-memory store: status 201 and id 1. *)
Lemma New_created_returns_storage_id_witness :
  json_Decode (lib:=Fake.lib) Fake.aliceBody = (Fake.alice, None)
  /\ validator_Struct Fake.alice = []
  /\ body (w (serve Fake.memNew (Fake.post Fake.aliceBody) []))
       = [JObj [("id", JNum 1)]].
Proof.
  split; [reflexivity |]. split; [reflexivity |].
  exact (proj1 (proj2 (proj2 (New_created_returns_storage_id
                         (lib:=Fake.lib) (storage:=Fake.memStore)
                         (Fake.post Fake.aliceBody) []
                         [mkStudent 1 "Alice" "alice@example.com" 20]
                         Fake.alice 1 eq_refl eq_refl eq_refl)))).
Defined.

(** The specification's example [{"name":"","email":"a@b.com","age":20}]:
    one message, about the field Name, and no storage call. *)
Lemma New_invalid_student_rejected_witness :
  json_Decode (lib:=Fake.lib) Fake.namelessBody = (Fake.nameless, None)
  /\ map Field (validator_Struct Fake.nameless) = ["Name"]
  /\ storage_calls (serve Fake.memNew (Fake.post Fake.namelessBody) []) = [].
Proof.
  pose proof (New_invalid_student_rejected
                (lib:=Fake.lib) (storage:=Fake.memStore)
                (Fake.post Fake.namelessBody) [] Fake.nameless
                eq_refl (or_introl eq_refl)) as Hrun.
  cbv zeta in Hrun.
  split; [reflexivity |]. split.
  - exact (proj1 (proj2 (proj2 (proj2 Hrun)))).
  - exact (proj1 (proj2 (proj2 (proj2 (proj2 (proj2 Hrun)))))).
Defined.

(** GET /api/students/abc: status 400 and no storage call. *)
Lemma GetById_bad_id_rejected_witness :
  strconv.ParseInt "abc" = (0, Some (strconv.syntaxError "ParseInt" "abc"))
  /\ wroteHeader (w (serve Fake.memGetById (Fake.get "abc") [])) = Some 400
  /\ storage_calls (serve Fake.memGetById (Fake.get "abc") []) = [].
Proof.
  pose proof (GetById_bad_id_rejected
                (lib:=Fake.lib) (storage:=Fake.memStore)
                (Fake.get "abc") [] 0 (strconv.syntaxError "ParseInt" "abc")
                eq_refl) as Hrun.
  cbv zeta in Hrun.
  split; [reflexivity |]. split.
  - exact (proj1 (proj2 (proj2 Hrun))).
  - exact (proj1 (proj2 (proj2 (proj2 Hrun)))).
Defined.

(** The create call made for Alice carries her three fields. *)
Lemma New_creates_only_valid_students_witness :
  In (CallCreateStudent "Alice" "alice@example.com" 20)
     (storage_calls (serve Fake.memNew (Fake.post Fake.aliceBody) []))
  /\ "Alice" <> "" /\ "alice@example.com" <> "" /\ 20 <> 0.
Proof.
  assert (Hcall : In (CallCreateStudent "Alice" "alice@example.com" 20)
                     (storage_calls (serve Fake.memNew (Fake.post Fake.aliceBody) [])))
    by (left; reflexivity).
  split; [exact Hcall |].
  exact (New_creates_only_valid_students
           (lib:=Fake.lib) (storage:=Fake.memStore)
           (Fake.post Fake.aliceBody) [] "Alice" "alice@example.com" 20 Hcall).
Defined.

(** The empty body gets "empty body"; the truncated body "{" gets the
    decoder's "unexpected EOF". *)
Lemma New_blank_body_message_witness :
  nonSpace "" = false
  /\ writes (serve Fake.brokenNew (Fake.post "") tt)
       = [(400, any_Response emptyBodyEnvelope)]
  /\ writes (serve Fake.brokenNew (Fake.post "{") tt)
       = [(400, any_Response (mkResponse "error" "unexpected EOF"))].
Proof.
  pose proof (New_blank_body_message
                (lib:=Fake.lib) (storage:=Fake.brokenStore)
                (Fake.post "") tt eq_refl) as Hrun.
  cbv zeta in Hrun. destruct Hrun as [Hblank Hother].
  split; [reflexivity |]. split.
  - exact (proj1 Hblank).
  - exact (proj1 (Hother Fake_decoder_errors_are_json
                    (Fake.post "{") tt zeroStudent Fake.io_ErrUnexpectedEOF
                    eq_refl eq_refl)).
Defined.

(** The truncated body "{": status 400, the decoder's error in the
    envelope, no validation and no storage call. *)
Lemma New_decode_error_rejected_witness :
  nonSpace "{" = true
  /\ json_Decode (lib:=Fake.lib) "{" = (zeroStudent, Some Fake.io_ErrUnexpectedEOF)
  /\ body (w (serve Fake.memNew (Fake.post "{") []))
       = [JObj [("status", JStr "error"); ("error", JStr "unexpected EOF")]]
  /\ validations (serve Fake.memNew (Fake.post "{") []) = []
  /\ storage_calls (serve Fake.memNew (Fake.post "{") []) = [].
Proof.
  pose proof (New_decode_error_rejected
                (lib:=Fake.lib) (storage:=Fake.memStore)
                (Fake.post "{") [] zeroStudent Fake.io_ErrUnexpectedEOF
                Fake_decoder_never_EOF eq_refl eq_refl) as Hrun.
  cbv zeta in Hrun.
  split; [reflexivity |]. split; [reflexivity |]. split; [| split].
  - exact (proj1 (proj2 (proj2 (proj2 Hrun)))).
  - exact (proj1 (proj2 (proj2 (proj2 (proj2 Hrun))))).
  - exact (proj1 (proj2 (proj2 (proj2 (proj2 (proj2 Hrun)))))).
Defined.

(** Listing a store that holds Alice: status 200 and the array of her
    record. *)
Lemma GetList_success_encodes_slice_witness :
  let st := [mkStudent 1 "Alice" "alice@example.com" 20] in
  @GetStudents _ Fake.memStore st = ((mk_slice st, None), st)
  /\ body (w (serve Fake.memGetList (Fake.get "") st))
       = [JArr [JObj [("id", JNum 1); ("name", JStr "Alice");
                      ("email", JStr "alice@example.com"); ("age", JNum 20)]]].
Proof.
  cbv zeta. split; [reflexivity |].
  exact (proj1 (proj2 (proj2 (GetList_success_encodes_slice
                                (storage:=Fake.memStore) (Fake.get "")
                                [mkStudent 1 "Alice" "alice@example.com" 20]
                                [mkStudent 1 "Alice" "alice@example.com" 20]
                                (mk_slice [mkStudent 1 "Alice" "alice@example.com" 20])
                                eq_refl)))).
Defined.

(* ===================================================================== *)
(** ** Decimal text and strconv.ParseInt *)
(* ===================================================================== *)

Lemma decimal_value_ge (d : Decimal.uint) :
  forall acc, 0 <= acc -> acc <= decimal_value acc d.
Proof.
  induction d; intros acc Hacc; cbn; [lia | ..];
    match goal with |- _ <= decimal_value ?a _ => specialize (IHd a) end; lia.
Qed.

Lemma of_uint_acc_value (d : Decimal.uint) :
  forall acc, Zpos (Pos.of_uint_acc d acc) = decimal_value (Zpos acc) d.
Proof.
  induction d; intros acc; cbn [Pos.of_uint_acc decimal_value]; [reflexivity | ..];
    rewrite IHd; f_equal; lia.
Qed.

Lemma of_uint_value (d : Decimal.uint) : Z.of_N (Pos.of_uint d) = decimal_value 0 d.
Proof.
  induction d; cbn [Pos.of_uint decimal_value]; [reflexivity | exact IHd | ..];
    cbn [Z.of_N]; rewrite of_uint_acc_value; reflexivity.
Qed.

(** On the digits of a number that fits a uint64 the loop of [ParseUint]
    meets neither of its overflow tests and returns the number. *)
Lemma ParseUint_loop_decimal (d : Decimal.uint) :
  forall acc, 0 <= acc -> decimal_value acc d <= strconv.maxUint64 ->
    strconv.ParseUint_loop (strconv.maxUint64 / strconv.base + 1)
      (2 ^ strconv.bitSize - 1) (NilEmpty.string_of_uint d) acc
    = strconv.UintOk (decimal_value acc d).
Proof.
  change (strconv.maxUint64 / strconv.base + 1) with 1844674407370955162.
  change (2 ^ strconv.bitSize - 1) with 18446744073709551615.
  change strconv.maxUint64 with 18446744073709551615.
  induction d; intros acc Hacc Hmax; [reflexivity | ..];
    cbn [NilEmpty.string_of_uint decimal_value strconv.ParseUint_loop] in *;
    match goal with
    | |- context [strconv.digit ?c] =>
        let v := eval vm_compute in (strconv.digit c) in
        change (strconv.digit c) with v
    end;
    cbv beta iota;
    match goal with
    | |- context [?k >=? strconv.base] => change (k >=? strconv.base) with false
    end;
    cbv beta iota zeta; unfold strconv.base;
    match type of Hmax with
    | decimal_value ?a _ <= _ =>
        pose proof (decimal_value_ge d a ltac:(lia)) as Hge;
        replace (acc >=? 1844674407370955162) with false
          by (symmetry; rewrite Z.geb_leb; apply Z.leb_gt; lia);
        replace (a >? 18446744073709551615) with false
          by (symmetry; rewrite Z.gtb_ltb; apply Z.ltb_ge; lia);
        apply IHd; lia
    end.
Qed.

Lemma string_of_uint_head (d : Decimal.uint) :
  d <> Decimal.Nil ->
  exists c rest, NilEmpty.string_of_uint d = String c rest
                 /\ Ascii.eqb c "+" = false /\ Ascii.eqb c "-" = false.
Proof.
  destruct d; [congruence | ..]; intros _; cbn; eauto.
Qed.

Lemma string_of_uint_nonnil (p : positive) :
  NilZero.string_of_uint (Pos.to_uint p) = NilEmpty.string_of_uint (Pos.to_uint p).
Proof.
  pose proof (Unsigned.to_uint_nonnil p) as Hnil. unfold NilZero.string_of_uint.
  destruct (Pos.to_uint p); [congruence | reflexivity..].
Qed.

Lemma ParseUint_to_uint (p : positive) :
  Zpos p <= strconv.maxUint64 ->
  strconv.ParseUint (NilEmpty.string_of_uint (Pos.to_uint p)) = strconv.UintOk (Zpos p).
Proof.
  intros Hmax.
  assert (Hval : decimal_value 0 (Pos.to_uint p) = Zpos p).
  { rewrite <- of_uint_value, Unsigned.of_to. reflexivity. }
  destruct (string_of_uint_head (Pos.to_uint p) (Unsigned.to_uint_nonnil p))
    as (c & rest & Hs & _ & _).
  unfold strconv.ParseUint.
  destruct (NilEmpty.string_of_uint (Pos.to_uint p)) eqn:Hstr; [discriminate |].
  rewrite <- Hstr, <- Hval.
  apply ParseUint_loop_decimal; [lia | rewrite Hval; exact Hmax].
Qed.

(** Round trip: the decimal text of an int64 parses back to that int64. *)
Lemma ParseInt_Sprint (n : Z) :
  minInt64 <= n <= maxInt64 -> strconv.ParseInt (fmt_Sprint n) = (n, None).
Proof.
  unfold minInt64, maxInt64, fmt_Sprint. intros Hn.
  destruct n as [|p|p]; [reflexivity | |];
    cbn [Z.to_int NilZero.string_of_int]; rewrite string_of_uint_nonnil;
    pose proof (ParseUint_to_uint p ltac:(unfold strconv.maxUint64; lia)) as Hu.
  - destruct (string_of_uint_head _ (Unsigned.to_uint_nonnil p))
      as (c & rest & Hs & Hplus & Hminus).
    rewrite Hs in *. unfold strconv.ParseInt.
    rewrite Hplus, Hminus. cbn [orb]. rewrite Hu.
    change (2 ^ (strconv.bitSize - 1)) with (2 ^ 63).
    replace (Z.pos p >=? 2 ^ 63) with false
      by (symmetry; rewrite Z.geb_leb; apply Z.leb_gt; lia).
    reflexivity.
  - unfold strconv.ParseInt.
    change (Ascii.eqb "-" "+" || Ascii.eqb "-" "-")%bool with true.
    change (Ascii.eqb "-" "-") with true.
    cbv beta iota zeta. rewrite Hu.
    change (2 ^ (strconv.bitSize - 1)) with (2 ^ 63).
    replace (Z.pos p >? 2 ^ 63) with false
      by (symmetry; rewrite Z.gtb_ltb; apply Z.ltb_ge; lia).
    reflexivity.
Qed.

(** The validator looks at the three ruled fields and at nothing else. *)
Lemma validator_Struct_fields_only (s1 s2 : Student) :
  Name s1 = Name s2 -> Email s1 = Email s2 -> Age s1 = Age s2 ->
  validator_Struct s1 = validator_Struct s2.
Proof. unfold validator_Struct. intros -> -> ->. reflexivity. Qed.

(* ===================================================================== *)
(** ** Further properties of the handlers *)
(* ===================================================================== *)

Section Coverage.

Context {lib : GoLib} {St : Type} {storage : Storage St}.

Implicit Types (r : Request) (st : St) (e : error) (student : Student).

(** *** New *)

(** X1.  Whatever the request and the backend, [New] writes exactly one
    response, of one body document, and its status is 201, 400 or 500. *)
Theorem New_answers_exactly_once r st :
  let wd := serve New r st in
  List.length (writes wd) = 1%nat
  /\ List.length (body (w wd)) = 1%nat
  /\ (wroteHeader (w wd) = Some StatusCreated
      \/ wroteHeader (w wd) = Some StatusBadRequest
      \/ wroteHeader (w wd) = Some StatusInternalServerError).
Proof.
  cbv zeta. New_cases r st; cbn; repeat split; tauto.
Qed.

(** X2.  [New] answers 400 exactly when it makes no storage call, and
    without a storage call the backend is left as it was. *)
Theorem New_bad_request_iff_storage_untouched r st :
  let wd := serve New r st in
  (wroteHeader (w wd) = Some StatusBadRequest <-> storage_calls wd = [])
  /\ (storage_calls wd = [] -> store wd = st).
Proof.
  cbv zeta. New_cases r st; cbn; (split; [split |]); intros Hx;
    solve [reflexivity | discriminate Hx].
Qed.

(** X3.  [New] makes at most one storage call, and that call is a
    [CreateStudent] with the name, email and age the body decoded to: it
    never reads from storage. *)
Theorem New_storage_calls_shape r st :
  storage_calls (serve New r st) = []
  \/ storage_calls (serve New r st)
       = [CallCreateStudent (Name (fst (json_Decode (Body r))))
            (Email (fst (json_Decode (Body r))))
            (Age (fst (json_Decode (Body r))))].
Proof.
  New_cases r st; cbn; tauto.
Qed.

(** X4.  [New] runs the validator exactly when the body decoded without
    error, once, on the decoded Student. *)
Theorem New_validates_iff_decoded r st :
  validations (serve New r st) =
    match json_Decode (Body r) with
    | (student, None) => [student]
    | (_, Some _) => []
    end.
Proof.
  New_cases r st; try reflexivity.
  match goal with
  | Heof : errors_Is_EOF ?x = true |- _ =>
      destruct x; [reflexivity | discriminate Heof]
  end.
Qed.

(** X5.  A 201 from [New] is only ever sent after the body decoded, the
    Student passed validation and [CreateStudent] returned without error;
    the body then carries the identifier storage returned and the backend
    is in the state storage left. *)
Theorem New_created_only_if r st :
  wroteHeader (w (serve New r st)) = Some StatusCreated ->
  exists student id st',
    json_Decode (Body r) = (student, None)
    /\ validator_Struct student = []
    /\ CreateStudent (Name student) (Email student) (Age student) st = ((id, None), st')
    /\ body (w (serve New r st)) = [JObj [("id", JNum id)]]
    /\ store (serve New r st) = st'.
Proof.
  New_cases r st; cbn; intros Hstatus; try discriminate Hstatus.
  eexists _, _, _. repeat split; eassumption.
Qed.

(** X6.  When [CreateStudent] fails, [New] has already logged "user created
    successfully" with the identifier returned beside the error; it then
    answers 500 with the error value as the body, and the backend is in the
    state the failed call left. *)
Theorem New_storage_error_response r st st' student lastId e :
  json_Decode (Body r) = (student, None) ->
  validator_Struct student = [] ->
  CreateStudent (Name student) (Email student) (Age student) st
    = ((lastId, Some e), st') ->
  let wd := serve New r st in
  writes wd = [(StatusInternalServerError, any_error e)]
  /\ wroteHeader (w wd) = Some 500
  /\ body (w wd) = [marshal_error e]
  /\ trace wd =
       [EvLog "INFO" "creating a student" [];
        EvValidate student;
        EvStorage (CallCreateStudent (Name student) (Email student) (Age student));
        EvLog "INFO" "user created successfully" [("userId", fmt_Sprint lastId)];
        EvWriteJson StatusInternalServerError (any_error e)]
  /\ store wd = st'.
Proof.
  intros Hdec Hval Hst wd. subst wd.
  rewrite (New_path_storage_error r st st' student lastId e Hdec Hval Hst).
  repeat split.
Qed.

(** X7.  The [Id] a body decodes to has no effect: two bodies that decode to
    Students with the same name, email and age get the same response, make
    the same storage call and leave the backend in the same state. *)
Theorem New_ignores_decoded_Id r1 r2 st s1 s2 :
  json_Decode (Body r1) = (s1, None) ->
  json_Decode (Body r2) = (s2, None) ->
  Name s1 = Name s2 -> Email s1 = Email s2 -> Age s1 = Age s2 ->
  writes (serve New r1 st) = writes (serve New r2 st)
  /\ w (serve New r1 st) = w (serve New r2 st)
  /\ storage_calls (serve New r1 st) = storage_calls (serve New r2 st)
  /\ store (serve New r1 st) = store (serve New r2 st).
Proof.
  intros Hd1 Hd2 Hn He Ha.
  pose proof (validator_Struct_fields_only s1 s2 Hn He Ha) as Hv.
  destruct (validator_Struct s1) as [|fe errs] eqn:Hv1.
  - symmetry in Hv.
    destruct (CreateStudent (Name s1) (Email s1) (Age s1) st)
      as [[lastId [e|]] st'] eqn:Hst.
    + rewrite (New_path_storage_error r1 st st' s1 lastId e Hd1 Hv1 Hst).
      rewrite Hn, He, Ha in Hst.
      rewrite (New_path_storage_error r2 st st' s2 lastId e Hd2 Hv Hst).
      cbn. rewrite Hn, He, Ha. repeat split.
    + rewrite (New_path_created r1 st st' s1 lastId Hd1 Hv1 Hst).
      rewrite Hn, He, Ha in Hst.
      rewrite (New_path_created r2 st st' s2 lastId Hd2 Hv Hst).
      cbn. rewrite Hn, He, Ha. repeat split.
  - rewrite (New_path_invalid r1 st s1 Hd1) by (rewrite Hv1; discriminate).
    rewrite (New_path_invalid r2 st s2 Hd2) by (rewrite <- Hv; discriminate).
    rewrite <- Hv, Hv1. repeat split.
Qed.

(** *** GetById *)

(** X8.  The status [GetById] sends and the number of responses it writes:
    400 and one write when the path identifier does not parse, 200 and one
    write when storage finds the student, and 500 with two writes when the
    storage call fails. *)
Theorem GetById_status_and_write_count r st :
  let wd := serve GetById r st in
  (wroteHeader (w wd), List.length (writes wd)) =
    match strconv.ParseInt (PathValue r "id") with
    | (_, Some _) => (Some StatusBadRequest, 1%nat)
    | (intId, None) =>
        match fst (GetStudentById intId st) with
        | (_, Some _) => (Some StatusInternalServerError, 2%nat)
        | (_, None) => (Some StatusOK, 1%nat)
        end
    end.
Proof.
  cbv zeta.
  destruct (strconv.ParseInt (PathValue r "id")) as [intId [e|]] eqn:Hid.
  - rewrite (GetById_path_bad_id r st intId e Hid). reflexivity.
  - destruct (GetStudentById intId st) as [[student [e|]] st'] eqn:Hst.
    + rewrite (GetById_path_storage_error r st st' intId student e Hid Hst).
      reflexivity.
    + rewrite (GetById_path_found r st st' intId student Hid Hst). reflexivity.
Qed.

(** X9.  When the identifier parses and the storage call fails, the client
    of [GetById] receives status 500 and two body documents: the error
    envelope with the text of the storage error, then the Student value that
    storage returned beside the error. *)
Theorem GetById_storage_error_response r st st' intId student e :
  strconv.ParseInt (PathValue r "id") = (intId, None) ->
  GetStudentById intId st = ((student, Some e), st') ->
  let wd := serve GetById r st in
  writes wd = [(StatusInternalServerError, any_Response (GeneralError e));
               (StatusOK, any_Student student)]
  /\ wroteHeader (w wd) = Some 500
  /\ body (w wd) = [JObj [("status", JStr "error"); ("error", JStr (Error e))];
                    marshal_Student student]
  /\ storage_calls wd = [CallGetStudentById intId]
  /\ store wd = st'.
Proof.
  intros Hid Hst wd. subst wd.
  rewrite (GetById_path_storage_error r st st' intId student e Hid Hst).
  repeat split.
Qed.

(** X10.  When the identifier parses and storage returns a student without
    error, [GetById] writes one response, status 200 with that student as
    the body, after one [GetStudentById] call for the parsed integer. *)
Theorem GetById_found_response r st st' intId student :
  strconv.ParseInt (PathValue r "id") = (intId, None) ->
  GetStudentById intId st = ((student, None), st') ->
  let wd := serve GetById r st in
  writes wd = [(StatusOK, any_Student student)]
  /\ wroteHeader (w wd) = Some 200
  /\ body (w wd) = [JObj [("id", JNum (Id student)); ("name", JStr (Name student));
                          ("email", JStr (Email student)); ("age", JNum (Age student))]]
  /\ storage_calls wd = [CallGetStudentById intId]
  /\ store wd = st'.
Proof.
  intros Hid Hst wd. subst wd.
  rewrite (GetById_path_found r st st' intId student Hid Hst).
  repeat split.
Qed.

(** X11.  Every storage call of [GetById] is a [GetStudentById] for the
    integer the path identifier parses to; that integer fits an int64 and
    the identifier is an optional sign followed by one or more decimal
    digits. *)
Theorem GetById_queries_only_parsed_ids r st c :
  In c (storage_calls (serve GetById r st)) ->
  exists id,
    c = CallGetStudentById id
    /\ strconv.ParseInt (PathValue r "id") = (id, None)
    /\ minInt64 <= id <= maxInt64
    /\ exists sign digits,
         PathValue r "id" = sign ++ digits
         /\ (sign = "" \/ sign = "+" \/ sign = "-")
         /\ digits <> "" /\ allDigits digits = true.
Proof.
  destruct (strconv.ParseInt (PathValue r "id")) as [intId [e|]] eqn:Hid.
  - rewrite (GetById_path_bad_id r st intId e Hid). cbn. tauto.
  - assert (Hcalls : storage_calls (serve GetById r st) = [CallGetStudentById intId]).
    { destruct (GetStudentById intId st) as [[student [e|]] st'] eqn:Hst.
      - rewrite (GetById_path_storage_error r st st' intId student e Hid Hst).
        reflexivity.
      - rewrite (GetById_path_found r st st' intId student Hid Hst). reflexivity. }
    rewrite Hcalls. intros [<- | []]. exists intId.
    split; [reflexivity |]. split; [reflexivity |]. split.
    + exact (ParseInt_int64 _ _ Hid).
    + exact (ParseInt_syntax _ _ Hid).
Qed.

(** X12.  For every int64 [id], a request whose path identifier is the
    decimal text of [id] makes [GetById] query storage for exactly [id]. *)
Theorem GetById_accepts_printed_id r st id :
  minInt64 <= id <= maxInt64 ->
  PathValue r "id" = fmt_Sprint id ->
  storage_calls (serve GetById r st) = [CallGetStudentById id].
Proof.
  intros Hrange Hpath.
  assert (Hid : strconv.ParseInt (PathValue r "id") = (id, None))
    by (rewrite Hpath; exact (ParseInt_Sprint id Hrange)).
  destruct (GetStudentById id st) as [[student [e|]] st'] eqn:Hst.
  - rewrite (GetById_path_storage_error r st st' id student e Hid Hst). reflexivity.
  - rewrite (GetById_path_found r st st' id student Hid Hst). reflexivity.
Qed.

(** *** GetList *)

(** X13.  Whatever the request, [GetList] makes exactly one storage call,
    [GetStudents], leaves the backend in the state that call returned, and
    writes one response: 500 when the call failed and 200 otherwise. *)
Theorem GetList_always_queries_once r st :
  let wd := serve GetList r st in
  storage_calls wd = [CallGetStudents]
  /\ store wd = snd (GetStudents st)
  /\ List.length (writes wd) = 1%nat
  /\ wroteHeader (w wd)
       = Some (match snd (fst (GetStudents st)) with
               | Some _ => StatusInternalServerError
               | None => StatusOK
               end).
Proof.
  cbv zeta. destruct (GetStudents st) as [[students [e|]] st'] eqn:Hst.
  - rewrite (GetList_path_storage_error r st st' students e Hst). repeat split.
  - rewrite (GetList_path_listed r st st' students Hst). repeat split.
Qed.

(** *** New followed by GetById *)

(** X14.  A successful [New] followed by [GetById] on the decimal text of the
    identifier it reported, against the backend [New] left: [GetById] asks
    storage for that identifier and, when storage finds it, answers 200 with
    the Student storage returned. *)
Theorem New_then_GetById r r' st st1 st2 student id found :
  json_Decode (Body r) = (student, None) ->
  validator_Struct student = [] ->
  CreateStudent (Name student) (Email student) (Age student) st = ((id, None), st1) ->
  minInt64 <= id <= maxInt64 ->
  PathValue r' "id" = fmt_Sprint id ->
  GetStudentById id st1 = ((found, None), st2) ->
  let created := serve New r st in
  let fetched := serve GetById r' (store created) in
  body (w created) = [JObj [("id", JNum id)]]
  /\ storage_calls fetched = [CallGetStudentById id]
  /\ writes fetched = [(StatusOK, any_Student found)]
  /\ wroteHeader (w fetched) = Some 200
  /\ body (w fetched) = [marshal_Student found]
  /\ store fetched = st2.
Proof.
  intros Hdec Hval Hcreate Hrange Hpath Hget created fetched.
  subst fetched created.
  rewrite (New_path_created r st st1 student id Hdec Hval Hcreate).
  cbn [store].
  assert (Hid : strconv.ParseInt (PathValue r' "id") = (id, None))
    by (rewrite Hpath; exact (ParseInt_Sprint id Hrange)).
  rewrite (GetById_path_found r' st1 st2 id found Hid Hget).
  repeat split.
Qed.

End Coverage.

(* ===================================================================== *)
(** ** The further properties at work *)
(* ===================================================================== *)

(** Alice is created in the empty in-memory store: the 201 traces back to a
    decoded, valid Student and a create call without error. *)
Lemma New_created_only_if_witness :
  wroteHeader (w (serve Fake.memNew (Fake.post Fake.aliceBody) [])) = Some 201
  /\ exists student id st',
       json_Decode (lib:=Fake.lib) Fake.aliceBody = (student, None)
       /\ validator_Struct student = []
       /\ @CreateStudent _ Fake.memStore (Name student) (Email student) (Age student) []
            = ((id, None), st').
Proof.
  assert (Hstatus : wroteHeader (w (serve Fake.memNew (Fake.post Fake.aliceBody) []))
                    = Some 201) by reflexivity.
  split; [exact Hstatus |].
  destruct (New_created_only_if (lib:=Fake.lib) (storage:=Fake.memStore)
              (Fake.post Fake.aliceBody) [] Hstatus)
    as (student & id & st' & Hdec & Hval & Hcreate & _).
  exists student, id, st'. split; [exact Hdec |]. split; [exact Hval | exact Hcreate].
Defined.

(** The broken backend returns identifier 0 beside its error: the success
    line is logged with "0" and the answer is 500. *)
Lemma New_storage_error_response_witness :
  In (EvLog "INFO" "user created successfully" [("userId", "0")])
     (trace (serve Fake.brokenNew (Fake.post Fake.aliceBody) tt))
  /\ wroteHeader (w (serve Fake.brokenNew (Fake.post Fake.aliceBody) tt)) = Some 500.
Proof.
  pose proof (New_storage_error_response
                (lib:=Fake.lib) (storage:=Fake.brokenStore)
                (Fake.post Fake.aliceBody) tt tt Fake.alice 0 Fake.closed
                eq_refl eq_refl eq_refl) as Hrun.
  cbv zeta in Hrun. destruct Hrun as (_ & Hstatus & _ & Htrace & _).
  split; [| exact Hstatus].
  unfold Fake.brokenNew. rewrite Htrace. cbn. tauto.
Defined.

(** Alice with and without an "id" member in the body: the same response
    and the same store. *)
Lemma New_ignores_decoded_Id_witness :
  json_Decode (lib:=FakeId.lib) FakeId.aliceWithIdBody = (FakeId.aliceWithId, None)
  /\ w (serve FakeId.memNew (Fake.post Fake.aliceBody) [])
     = w (serve FakeId.memNew (Fake.post FakeId.aliceWithIdBody) [])
  /\ store (serve FakeId.memNew (Fake.post Fake.aliceBody) [])
     = store (serve FakeId.memNew (Fake.post FakeId.aliceWithIdBody) []).
Proof.
  pose proof (New_ignores_decoded_Id
                (lib:=FakeId.lib) (storage:=Fake.memStore)
                (Fake.post Fake.aliceBody) (Fake.post FakeId.aliceWithIdBody) []
                Fake.alice FakeId.aliceWithId
                eq_refl eq_refl eq_refl eq_refl eq_refl) as (_ & Hw & _ & Hstore).
  split; [reflexivity |]. split; [exact Hw | exact Hstore].
Defined.

(** GET /api/students/7 on the empty store: status 500 and two documents. *)
Lemma GetById_storage_error_response_witness :
  wroteHeader (w (serve Fake.memGetById (Fake.get "7") [])) = Some 500
  /\ List.length (body (w (serve Fake.memGetById (Fake.get "7") []))) = 2%nat.
Proof.
  pose proof (GetById_storage_error_response
                (lib:=Fake.lib) (storage:=Fake.memStore)
                (Fake.get "7") [] [] 7 zeroStudent
                (errorString "no student found with id 7") eq_refl eq_refl) as Hrun.
  cbv zeta in Hrun. destruct Hrun as (_ & Hstatus & Hbody & _).
  split; [exact Hstatus |]. unfold Fake.memGetById. rewrite Hbody. reflexivity.
Defined.

(** GET /api/students/1 on a store that holds Alice. *)
Lemma GetById_found_response_witness :
  let st := [mkStudent 1 "Alice" "alice@example.com" 20] in
  writes (serve Fake.memGetById (Fake.get "1") st)
    = [(200, any_Student (mkStudent 1 "Alice" "alice@example.com" 20))].
Proof.
  cbv zeta.
  exact (proj1 (GetById_found_response
                  (lib:=Fake.lib) (storage:=Fake.memStore)
                  (Fake.get "1") [mkStudent 1 "Alice" "alice@example.com" 20]
                  [mkStudent 1 "Alice" "alice@example.com" 20] 1
                  (mkStudent 1 "Alice" "alice@example.com" 20) eq_refl eq_refl)).
Defined.

(** The identifier "+007" reaches storage as the integer 7. *)
Lemma GetById_queries_only_parsed_ids_witness :
  In (CallGetStudentById 7) (storage_calls (serve Fake.memGetById (Fake.get "+007") []))
  /\ exists id, CallGetStudentById 7 = CallGetStudentById id
                /\ strconv.ParseInt "+007" = (id, None)
                /\ minInt64 <= id <= maxInt64.
Proof.
  assert (Hcall : In (CallGetStudentById 7)
                     (storage_calls (serve Fake.memGetById (Fake.get "+007") [])))
    by (left; reflexivity).
  split; [exact Hcall |].
  destruct (GetById_queries_only_parsed_ids
              (lib:=Fake.lib) (storage:=Fake.memStore)
              (Fake.get "+007") [] (CallGetStudentById 7) Hcall)
    as (id & Hc & Hparse & Hrange & _).
  exists id. split; [exact Hc |]. split; [exact Hparse | exact Hrange].
Defined.

(** The decimal text of -42 is "-42", and it reaches storage as -42. *)
Lemma GetById_accepts_printed_id_witness :
  fmt_Sprint (-42) = "-42"
  /\ storage_calls (serve Fake.memGetById (Fake.get "-42") []) = [CallGetStudentById (-42)].
Proof.
  split; [reflexivity |].
  apply (GetById_accepts_printed_id (lib:=Fake.lib) (storage:=Fake.memStore)
           (Fake.get "-42") [] (-42)).
  - unfold minInt64, maxInt64. lia.
  - reflexivity.
Defined.

(** Alice is created with identifier 1 and fetched back under "1". *)
Lemma New_then_GetById_witness :
  let created := serve Fake.memNew (Fake.post Fake.aliceBody) [] in
  body (w created) = [JObj [("id", JNum 1)]]
  /\ writes (serve Fake.memGetById (Fake.get "1") (store created))
       = [(200, any_Student (mkStudent 1 "Alice" "alice@example.com" 20))].
Proof.
  pose proof (New_then_GetById
                (lib:=Fake.lib) (storage:=Fake.memStore)
                (Fake.post Fake.aliceBody) (Fake.get "1") []
                [mkStudent 1 "Alice" "alice@example.com" 20]
                [mkStudent 1 "Alice" "alice@example.com" 20]
                Fake.alice 1 (mkStudent 1 "Alice" "alice@example.com" 20)
                eq_refl eq_refl eq_refl
                ltac:(unfold minInt64, maxInt64; lia) eq_refl eq_refl) as Hrun.
  cbv zeta in Hrun. destruct Hrun as (Hbody & _ & Hwrites & _).
  cbv zeta. split; [exact Hbody | exact Hwrites].
Defined.
